(** * btrfs-backup: the command's control flow against its specification

    The repository holds two generations of the command's entry point,
    [backup.go] and its predecessor [btrfs_backup.go].  Both are embedded
    here as programs over an explicit interface of external calls (the btrfs
    driver, the net/rpc/http libraries and the logger); a run of a program
    against an environment yields the ordered trace of the calls it made,
    each with the answer it got, and the way the run ended. *)

From Stdlib Require Import String Ascii ZArith List Bool Lia DecimalString.
Import ListNotations.
Local Open Scope string_scope.
Local Open Scope Z_scope.

(** ** Go values *)

(** A Go slice is either [nil] or a (possibly empty) sequence; the code
    tests [subvols == nil], so the two are kept apart. *)
Definition slice (A : Type) : Type := option (list A).

Definition elems {A : Type} (s : slice A) : list A :=
  match s with
  | Some l => l
  | None => []
  end.

Definition len {A : Type} (s : slice A) : nat := length (elems s).

Definition is_nil {A : Type} (s : slice A) : bool :=
  match s with
  | Some _ => false
  | None => true
  end.

(** [s[i]] for an index that the loop keeps below [len(s)]; the default is
    never reached from [send_all]. *)
Definition index (s : slice string) (i : nat) : string := nth i (elems s) "".

(** Go's [error] values met in the program: the one [validateConfig] builds
    with [fmt.Errorf("Invalid port number: %d", port)], and the ones handed
    back by the driver and by the network libraries. *)
Inductive error : Type :=
| InvalidPort (port : Z)
| External (msg : string).

Definition not_nil (err : option error) : bool :=
  match err with
  | Some _ => true
  | None => false
  end.

(** *** The conversion [string(i)] of an integer

    Go converts an integer to the UTF-8 encoding of the code point with that
    number; anything that is not a valid code point becomes U+FFFD.  This is
    [runtime.intstring] over [runtime.encoderune]. *)
Definition runeError : Z := 0xFFFD.
Definition maxRune : Z := 0x10FFFF.

Definition valid_rune (r : Z) : bool :=
  (0 <=? r) && (r <=? maxRune) && negb ((0xD800 <=? r) && (r <=? 0xDFFF)).

Definition encoderune (r : Z) : list Z :=
  if r <=? 0x7F then [r]
  else if r <=? 0x7FF then
    [Z.lor 0xC0 (Z.shiftr r 6); Z.lor 0x80 (Z.land r 0x3F)]
  else if r <=? 0xFFFF then
    [Z.lor 0xE0 (Z.shiftr r 12);
     Z.lor 0x80 (Z.land (Z.shiftr r 6) 0x3F);
     Z.lor 0x80 (Z.land r 0x3F)]
  else
    [Z.lor 0xF0 (Z.shiftr r 18);
     Z.lor 0x80 (Z.land (Z.shiftr r 12) 0x3F);
     Z.lor 0x80 (Z.land (Z.shiftr r 6) 0x3F);
     Z.lor 0x80 (Z.land r 0x3F)].

Definition bytes_to_string (bs : list Z) : string :=
  fold_right (fun b s => String (ascii_of_N (Z.to_N b)) s) EmptyString bs.

Definition intstring (v : Z) : string :=
  bytes_to_string (encoderune (if valid_rune v then v else runeError)).

(** The decimal rendering of an integer ([strconv.Itoa]): what a dial
    address needs after the colon. *)
Definition Itoa (v : Z) : string := NilZero.string_of_int (Z.to_int v).

(** ** Configuration

    [config.Config], in the field order of the composite literal in
    [process]. *)
Record Config : Type := mkConfig {
  SubvolumePath : string;
  SubvolumeDirectoryPath : string;
  Server : bool;
  DestinationHost : string;
  DestinationPort : Z
}.

(** ** External calls *)

(** How [http.Serve] ends: it serves until the listener fails, and then
    returns that (non-nil) error. *)
Inductive served : Type :=
| ServesForever
| ServeReturns (e : error).

(** One constructor per external operation, indexed by the type of the
    answer.  For [driver.Snapshot] and [driver.SendSubvolume] only the error
    component is kept: the program discards the rest. *)
Inductive call : Type -> Type :=
| Info : call unit
| LogPrintf (e : error) : call unit
| Prepare (backupConfig : Config) : call (option error)
| PrepareSubvolume (subvolume : string) : call (option error)
| Subvolumes (backupConfig : Config) : call (slice string * option error)
| Snapshot (backupConfig : Config) (path : string) : call (option error)
| SendSubvolume (subvolume : string) : call (option error)
| Register : call (option error)
| HandleHTTP : call unit
| Listen (network address : string) : call (option error)
| Serve : call served
| DialHTTP (network address : string) : call (option error)
| Call (serviceMethod : string) (args : slice string)
    : call (slice string * option error).

(** A call together with its answer, as it appears in a trace. *)
Inductive event : Type :=
| EvInfo
| EvLogPrintf (e : error)
| EvPrepare (backupConfig : Config) (err : option error)
| EvPrepareSubvolume (subvolume : string) (err : option error)
| EvSubvolumes (backupConfig : Config) (subvols : slice string)
    (err : option error)
| EvSnapshot (backupConfig : Config) (path : string) (err : option error)
| EvSendSubvolume (subvolume : string) (err : option error)
| EvRegister (err : option error)
| EvHandleHTTP
| EvListen (network address : string) (err : option error)
| EvServe (r : served)
| EvDialHTTP (network address : string) (err : option error)
| EvCall (serviceMethod : string) (args reply : slice string)
    (err : option error).

Definition record {X : Type} (c : call X) : X -> event :=
  match c in call X return X -> event with
  | Info => fun _ => EvInfo
  | LogPrintf e => fun _ => EvLogPrintf e
  | Prepare cfg => fun r => EvPrepare cfg r
  | PrepareSubvolume p => fun r => EvPrepareSubvolume p r
  | Subvolumes cfg => fun r => EvSubvolumes cfg (fst r) (snd r)
  | Snapshot cfg p => fun r => EvSnapshot cfg p r
  | SendSubvolume s => fun r => EvSendSubvolume s r
  | Register => fun r => EvRegister r
  | HandleHTTP => fun _ => EvHandleHTTP
  | Listen n a => fun r => EvListen n a r
  | Serve => fun r => EvServe r
  | DialHTTP n a => fun r => EvDialHTTP n a r
  | Call m args => fun r => EvCall m args (fst r) (snd r)
  end.

(** Calls into the btrfs driver. *)
Definition is_driver (e : event) : bool :=
  match e with
  | EvPrepare _ _ | EvPrepareSubvolume _ _ | EvSubvolumes _ _ _
  | EvSnapshot _ _ _ | EvSendSubvolume _ _ => true
  | _ => false
  end.

(** Calls that touch the network. *)
Definition is_network (e : event) : bool :=
  match e with
  | EvListen _ _ _ | EvServe _ | EvDialHTTP _ _ _ | EvCall _ _ _ _ => true
  | _ => false
  end.

Definition is_prepare (e : event) : bool :=
  match e with
  | EvPrepare _ _ | EvPrepareSubvolume _ _ => true
  | _ => false
  end.

Definition is_snapshot (e : event) : bool :=
  match e with
  | EvSnapshot _ _ _ => true
  | _ => false
  end.

Definition is_send (e : event) : bool :=
  match e with
  | EvSendSubvolume _ _ => true
  | _ => false
  end.

(** The subvolumes handed to [SendSubvolume], in the order of the calls. *)
Fixpoint sent (t : list event) : list string :=
  match t with
  | [] => []
  | EvSendSubvolume s _ :: t' => s :: sent t'
  | _ :: t' => sent t'
  end.

(** ** Programs

    A program is a finite tree: it returns, dies in [log.Fatal] (which
    prints and calls [os.Exit(1)]), stays inside [http.Serve] for good, or
    makes a call and goes on with the answer. *)
Inductive prog (A : Type) : Type :=
| Ret (a : A)
| Fatal (prefix : string) (e : error)
| Forever
| Vis (X : Type) (c : call X) (k : X -> prog A).

Arguments Ret {A} a.
Arguments Fatal {A} prefix e.
Arguments Forever {A}.
Arguments Vis {A X} c k.

Fixpoint bind {A B : Type} (p : prog A) (f : A -> prog B) : prog B :=
  match p with
  | Ret a => f a
  | Fatal m e => Fatal m e
  | Forever => Forever
  | Vis c k => Vis c (fun x => bind (k x) f)
  end.

Definition trigger {X : Type} (c : call X) : prog X := Vis c Ret.

Declare Scope prog_scope.
Delimit Scope prog_scope with prog.
Notation "x <- p ;; q" := (bind p (fun x => q))
  (at level 61, p at next level, right associativity) : prog_scope.
Notation "' pat <- p ;; q" := (bind p (fun x => match x with pat => q end))
  (at level 61, pat pattern, p at next level, right associativity)
  : prog_scope.
Notation "p ;; q" := (bind p (fun _ => q))
  (at level 61, right associativity) : prog_scope.
Local Open Scope prog_scope.

(** [for i := start; ...; i++ { body }] with a known number of rounds. *)
Fixpoint for_range (rounds i : nat) (body : nat -> prog unit) : prog unit :=
  match rounds with
  | O => Ret tt
  | S n => body i ;; for_range n (S i) body
  end.

(** ** Running a program against an environment *)

Inductive outcome (A : Type) : Type :=
| Returned (a : A)
| Exited (status : Z)
| Blocked.

Arguments Returned {A} a.
Arguments Exited {A} status.
Arguments Blocked {A}.

(** The environment answers every call, and may remember what happened. *)
Definition handler (S : Type) : Type := forall X : Type, call X -> S -> X * S.

Record result (S A : Type) : Type := mkResult {
  trace : list event;
  out : outcome A;
  final : S
}.

Arguments mkResult {S A} trace out final.
Arguments trace {S A} r.
Arguments out {S A} r.
Arguments final {S A} r.

Definition cons_event {S A : Type} (e : event) (r : result S A) : result S A :=
  mkResult (e :: trace r) (out r) (final r).

Fixpoint run {S A : Type} (h : handler S) (p : prog A) (s : S) : result S A :=
  match p with
  | Ret a => mkResult [] (Returned a) s
  | Fatal _ _ => mkResult [] (Exited 1) s
  | Forever => mkResult [] Blocked s
  | Vis c k =>
      let (x, s') := h _ c s in
      cons_event (record c x) (run h (k x) s')
  end.

(** [main] is [os.Exit(realMain())]: the status the process ends with, if it
    ends. *)
Definition exit_status (o : outcome Z) : option Z :=
  match o with
  | Returned n => Some n
  | Exited n => Some n
  | Blocked => None
  end.

(** ** backup.go *)

Module Backup.

(** The port test of [validateConfig]. *)
Definition port_out_of_range (port : Z) : bool :=
  (port >? 65535) || (port <? 1024).

Definition validateConfig (backupConfig : Config) : prog (option error) :=
  err <- trigger (Prepare backupConfig) ;;
  match err with
  | Some e => Ret (Some e)
  | None =>
      let err := InvalidPort (DestinationPort backupConfig) in
      if port_out_of_range (DestinationPort backupConfig) then Ret (Some err)
      else
        '(subvols, err) <- trigger (Subvolumes backupConfig) ;;
        if not_nil err && is_nil subvols then Ret err
        else
          err2 <- trigger (Snapshot backupConfig "/") ;;
          match err2 with
          | Some e2 => Ret (Some e2)
          | None => Ret None
          end
  end.

(** The loop at the end of the client branch. *)
Definition send_all (subvols : slice string) : prog unit :=
  for_range (len subvols) O
    (fun i => trigger (SendSubvolume (index subvols i)) ;; Ret tt).

(** The address the client dials. *)
Definition dial_address (backupConfig : Config) : string :=
  DestinationHost backupConfig ++ ":" ++
  intstring (DestinationPort backupConfig).

(** [process], from the point where the flags have been parsed into
    [backupConfig]. *)
Definition process (backupConfig : Config) : prog (option error) :=
  trigger Info ;;
  err <- validateConfig backupConfig ;;
  match err with
  | Some e => Ret (Some e)
  | None =>
      if Server backupConfig then
        trigger Register ;;
        trigger HandleHTTP ;;
        e <- trigger (Listen "tcp" ":1234") ;;
        match e with
        | Some e => Fatal "listen error:" e
        | None =>
            r <- trigger Serve ;;
            match r with
            | ServesForever => Forever
            | ServeReturns _ => Ret None
            end
        end
      else
        err <- trigger (DialHTTP "tcp" (dial_address backupConfig)) ;;
        match err with
        | Some e => Fatal "dialing:" e
        | None =>
            '(subvols, _) <- trigger (Subvolumes backupConfig) ;;
            '(_, err) <- trigger (Call "BtrfsRPC.SnapshotsNeeded" subvols) ;;
            match err with
            | Some e => Fatal "arith error:" e
            | None => send_all subvols ;; Ret None
            end
        end
  end.

(** [realMain]; the settings of GOMAXPROCS and of the two log variables that
    come before the call of [process] touch nothing that [process] reads. *)
Definition realMain (backupConfig : Config) : prog Z :=
  err <- process backupConfig ;;
  match err with
  | Some e => trigger (LogPrintf e) ;; Ret 1
  | None => Ret 0
  end.

End Backup.

(** ** btrfs_backup.go

    The earlier entry point.  Its [config] type, [defaultConfig] and the
    accessor [Subvolume] are declared in a file that is not at hand, so they
    are taken as given. *)

Module BtrfsBackup.
Section WithConfig.

Variable config : Type.
Variable defaultConfig : config.
Variable Subvolume : config -> string.

Definition validateConfig (backupConfig : config) : prog (option error) :=
  err <- trigger (PrepareSubvolume (Subvolume backupConfig)) ;;
  Ret err.

Definition process : prog (option error) :=
  let backupConfig := defaultConfig in
  err <- validateConfig backupConfig ;;
  match err with
  | Some e => Ret (Some e)
  | None => Ret None
  end.

(** Here the error is logged and the status is 0 on both paths. *)
Definition realMain : prog Z :=
  err <- process ;;
  match err with
  | Some e => trigger (LogPrintf e)
  | None => Ret tt
  end ;;
  Ret 0.

End WithConfig.
End BtrfsBackup.

(** ** Environments to run against *)

(** An environment that gives the same answers whenever it is asked. *)
Record world : Type := mkWorld {
  w_prepare : option error;
  w_subvolumes : slice string * option error;
  w_snapshot : option error;
  w_send : string -> option error;
  w_listen : option error;
  w_serve : served;
  w_dial : option error;
  w_call : slice string -> slice string * option error
}.

Definition static (w : world) : handler unit :=
  fun X c s =>
    match c in call X return X * unit with
    | Info => (tt, s)
    | LogPrintf _ => (tt, s)
    | Prepare _ => (w_prepare w, s)
    | PrepareSubvolume _ => (w_prepare w, s)
    | Subvolumes _ => (w_subvolumes w, s)
    | Snapshot _ _ => (w_snapshot w, s)
    | SendSubvolume name => (w_send w name, s)
    | Register => (None, s)
    | HandleHTTP => (tt, s)
    | Listen _ _ => (w_listen w, s)
    | Serve => (w_serve w, s)
    | DialHTTP _ _ => (w_dial w, s)
    | Call _ args => (w_call w args, s)
    end.

Definition mem (x : string) (l : list string) : bool :=
  existsb (String.eqb x) l.

(** A healthy machine next to a healthy server.  The state is the list of
    snapshots the server holds: it answers [SnapshotsNeeded] with those of
    the client's names it has, and gains a snapshot with every send. *)
Definition peer (chain : list string) : handler (list string) :=
  fun X c held =>
    match c in call X return X * list string with
    | Info => (tt, held)
    | LogPrintf _ => (tt, held)
    | Prepare _ => (None, held)
    | PrepareSubvolume _ => (None, held)
    | Subvolumes _ => ((Some chain, None), held)
    | Snapshot _ _ => (None, held)
    | SendSubvolume name => (None, (held ++ [name])%list)
    | Register => (None, held)
    | HandleHTTP => (tt, held)
    | Listen _ _ => (None, held)
    | Serve => (ServesForever, held)
    | DialHTTP _ _ => (None, held)
    | Call _ args =>
        ((Some (filter (fun a => mem a held) (elems args)), None), held)
    end.

(** Everything works; the local chain is [chain] and the server reports
    [present]. *)
Definition healthy (chain present : list string) : world :=
  mkWorld None (Some chain, None) None (fun _ => None) None ServesForever None
    (fun _ => (Some present, None)).

Definition client_config (port : Z) : Config :=
  mkConfig "/" "backups" false "backuphost" port.

Definition server_config (port : Z) : Config :=
  mkConfig "/" "backups" true "" port.

(** [f] holds of the [n] integers from [lo] on. *)
Fixpoint all_from (lo : Z) (n : nat) (f : Z -> bool) : bool :=
  match n with
  | O => true
  | S n' => f lo && all_from (lo + 1) n' f
  end.

(** ** The shapes a run can take *)

(** One [SendSubvolume] per name, each with the answer it got. *)
Definition send_events (names : list string) (answers : list (option error))
  : list event :=
  map (fun p => EvSendSubvolume (fst p) (snd p)) (combine names answers).

(** The runs of [Backup.validateConfig]: trace and returned error. *)
Inductive validated (cfg : Config) : list event -> option error -> Prop :=
| validated_prepare_failed (e : error) :
    validated cfg [EvPrepare cfg (Some e)] (Some e)
| validated_bad_port :
    Backup.port_out_of_range (DestinationPort cfg) = true ->
    validated cfg [EvPrepare cfg None]
      (Some (InvalidPort (DestinationPort cfg)))
| validated_enumeration_failed (e : error) :
    Backup.port_out_of_range (DestinationPort cfg) = false ->
    validated cfg [EvPrepare cfg None; EvSubvolumes cfg None (Some e)]
      (Some e)
| validated_snapshot (subvols : slice string) (err err2 : option error) :
    Backup.port_out_of_range (DestinationPort cfg) = false ->
    not_nil err && is_nil subvols = false ->
    validated cfg
      [EvPrepare cfg None; EvSubvolumes cfg subvols err;
       EvSnapshot cfg "/" err2]
      err2.

(** The runs of [Backup.process] after a successful validation. *)
Inductive served_run : list event -> outcome (option error) -> Prop :=
| served_listen_failed (r : option error) (e : error) :
    served_run
      [EvRegister r; EvHandleHTTP; EvListen "tcp" ":1234" (Some e)]
      (Exited 1)
| served_forever (r : option error) :
    served_run
      [EvRegister r; EvHandleHTTP; EvListen "tcp" ":1234" None;
       EvServe ServesForever]
      Blocked
| served_until (r : option error) (e : error) :
    served_run
      [EvRegister r; EvHandleHTTP; EvListen "tcp" ":1234" None;
       EvServe (ServeReturns e)]
      (Returned None).

Inductive client_run (cfg : Config)
  : list event -> outcome (option error) -> Prop :=
| client_dial_failed (e : error) :
    client_run cfg
      [EvDialHTTP "tcp" (Backup.dial_address cfg) (Some e)] (Exited 1)
| client_call_failed (subvols reply : slice string) (err : option error)
    (e : error) :
    client_run cfg
      [EvDialHTTP "tcp" (Backup.dial_address cfg) None;
       EvSubvolumes cfg subvols err;
       EvCall "BtrfsRPC.SnapshotsNeeded" subvols reply (Some e)]
      (Exited 1)
| client_sent (subvols reply : slice string) (err : option error)
    (answers : list (option error)) :
    length answers = len subvols ->
    client_run cfg
      ([EvDialHTTP "tcp" (Backup.dial_address cfg) None;
        EvSubvolumes cfg subvols err;
        EvCall "BtrfsRPC.SnapshotsNeeded" subvols reply None]
       ++ send_events (elems subvols) answers)%list
      (Returned None).

Inductive processed (cfg : Config)
  : list event -> outcome (option error) -> Prop :=
| processed_invalid (tv : list event) (e : error) :
    validated cfg tv (Some e) ->
    processed cfg (EvInfo :: tv) (Returned (Some e))
| processed_server (tv t : list event) (o : outcome (option error)) :
    validated cfg tv None ->
    Server cfg = true ->
    served_run t o ->
    processed cfg (EvInfo :: tv ++ t)%list o
| processed_client (tv t : list event) (o : outcome (option error)) :
    validated cfg tv None ->
    Server cfg = false ->
    client_run cfg t o ->
    processed cfg (EvInfo :: tv ++ t)%list o.

(** ** Which side an event belongs to *)

(** The calls of the server branch of [process]. *)
Definition is_server_side (e : event) : bool :=
  match e with
  | EvRegister _ | EvHandleHTTP | EvListen _ _ _ | EvServe _ => true
  | _ => false
  end.

(** The calls that only the client branch of [process] makes. *)
Definition is_client_side (e : event) : bool :=
  match e with
  | EvDialHTTP _ _ _ | EvCall _ _ _ _ | EvSendSubvolume _ _ => true
  | _ => false
  end.

(** A network call whose error sends [process] into [log.Fatal]. *)
Definition is_fatal (e : event) : bool :=
  match e with
  | EvListen _ _ (Some _) | EvDialHTTP _ _ (Some _)
  | EvCall _ _ _ (Some _) => true
  | _ => false
  end.

(** ** The process environment and [logOutput]

    [os.Getenv] gives the empty string for a variable that is not set, so
    the environment is a total function.  [logOutput] is the same in both
    files. *)
Definition environ : Type := string -> string.

Definition Getenv (env : environ) (key : string) : string := env key.

Definition Setenv (key value : string) (env : environ) : environ :=
  fun k => if String.eqb k key then value else env k.

(** What [realMain] does to the environment before it calls [process]. *)
Definition reset_log_variables (env : environ) : environ :=
  Setenv "BTRFS_BACKUP_LOG_FILE" "" (Setenv "BTRFS_BACKUP_LOG" "" env).

(** The [io.Writer]s [logOutput] can hand out. *)
Inductive Writer : Type :=
| Discard
| Stderr
| File (path : string).

Section LogOutput.

(** What [os.Create] answers for a path: nil, or its error. *)
Variable create_error : string -> option error.

(** [os.Create] creates or truncates the file; the state is the list of the
    paths it has done that to. *)
Definition Create (path : string) (created : list string)
  : option Writer * option error * list string :=
  match create_error path with
  | None => (Some (File path), None, path :: created)
  | Some e => (None, Some e, created)
  end.

(** The named results are [logOutput] and [err]; the [err] assigned by
    [os.Create] is the inner one, so the final bare [return] gives a nil
    error. *)
Definition logOutput (env : environ) (created : list string)
  : option Writer * option error * list string :=
  let logOutput := Some Discard in
  if negb (String.eqb (Getenv env "BTRFS_BACKUP_LOG") "") then
    let logOutput := Some Stderr in
    let logPath := Getenv env "BTRFS_BACKUP_LOG_PATH" in
    if negb (String.eqb logPath "") then
      let '(logOutput, err, created) := Create logPath created in
      match err with
      | Some e => (None, Some e, created)
      | None => (logOutput, None, created)
      end
    else (logOutput, None, created)
  else (logOutput, None, created).

End LogOutput.

(** * Properties *)

(** ** Running sequenced programs *)

Lemma run_bind {St A B : Type} (h : handler St) (p : prog A) (f : A -> prog B)
    (s : St) :
  run h (bind p f) s =
  match out (run h p s) with
  | Returned a =>
      let r := run h (f a) (final (run h p s)) in
      mkResult (trace (run h p s) ++ trace r)%list (out r) (final r)
  | Exited n => mkResult (trace (run h p s)) (Exited n) (final (run h p s))
  | Blocked => mkResult (trace (run h p s)) Blocked (final (run h p s))
  end.
Proof.
  revert s; induction p as [a | m e | | X c k IH]; intros s; simpl.
  - destruct (run h (f a) s); reflexivity.
  - reflexivity.
  - reflexivity.
  - destruct (h X c s) as [x s']; rewrite IH; unfold cons_event; simpl.
    destruct (out (run h (k x) s')); reflexivity.
Qed.

Lemma skipn_nth (l : list string) (i : nat) :
  (i < length l)%nat -> skipn i l = nth i l "" :: skipn (S i) l.
Proof.
  revert i; induction l as [| a l IH]; intros [| i] H; simpl in *;
    try lia; [reflexivity | apply IH; lia].
Qed.

(** The loop calls [SendSubvolume] once per element, in order, whatever
    the answers are, and then falls through. *)
Lemma run_send_from {St : Type} (h : handler St) (subvols : slice string)
    (n i : nat) (s : St) :
  (i + n = len subvols)%nat ->
  let r :=
    run h
      (for_range n i
         (fun i => trigger (SendSubvolume (index subvols i)) ;; Ret tt)) s in
  out r = Returned tt /\
  exists answers, length answers = n /\
    trace r = send_events (skipn i (elems subvols)) answers.
Proof.
  revert i s; induction n as [| n IH]; intros i s H; simpl.
  - split; [reflexivity | exists []; split; [reflexivity |]].
    unfold send_events; destruct (skipn i (elems subvols)); reflexivity.
  - destruct (h _ (SendSubvolume (index subvols i)) s) as [x s'].
    destruct (IH (S i) s' ltac:(lia)) as [Ho [answers [Hl Ht]]].
    simpl in Ho, Ht.
    split; [exact Ho |].
    exists (x :: answers); split; [simpl; congruence |].
    unfold cons_event; simpl; rewrite Ht.
    rewrite (skipn_nth (elems subvols) i) by (unfold len in H; lia).
    reflexivity.
Qed.

Lemma run_send_all {St : Type} (h : handler St) (subvols : slice string)
    (s : St) :
  out (run h (Backup.send_all subvols) s) = Returned tt /\
  exists answers, length answers = len subvols /\
    trace (run h (Backup.send_all subvols) s) =
    send_events (elems subvols) answers.
Proof.
  exact (run_send_from h subvols (len subvols) O s eq_refl).
Qed.

(** ** Every run of [validateConfig] and of [process] has one of the
    listed shapes *)

Lemma run_validateConfig {St : Type} (h : handler St) (cfg : Config)
    (s : St) :
  exists err,
    out (run h (Backup.validateConfig cfg) s) = Returned err /\
    validated cfg (trace (run h (Backup.validateConfig cfg) s)) err.
Proof.
  unfold Backup.validateConfig; simpl.
  destruct (h _ (Prepare cfg) s) as [[e |] s1]; simpl.
  - exists (Some e); split; [reflexivity | constructor].
  - destruct (Backup.port_out_of_range (DestinationPort cfg)) eqn:Hport;
      simpl.
    + eexists; split; [reflexivity | constructor; exact Hport].
    + destruct (h _ (Subvolumes cfg) s1) as [[subvols err] s2]; simpl.
      destruct (not_nil err && is_nil subvols) eqn:Hsup; simpl.
      * destruct err as [e |]; [| discriminate Hsup].
        destruct subvols as [l |]; [discriminate Hsup |].
        exists (Some e); split; [reflexivity | constructor; exact Hport].
      * destruct (h _ (Snapshot cfg "/") s2) as [err2 s3].
        exists err2; split; [destruct err2; reflexivity |].
        destruct err2; simpl; constructor; assumption.
Qed.

Lemma run_served {St : Type} (h : handler St) (s : St) :
  let p : prog (option error) :=
    trigger Register ;;
    trigger HandleHTTP ;;
    e <- trigger (Listen "tcp" ":1234") ;;
    match e with
    | Some e => Fatal "listen error:" e
    | None =>
        r <- trigger Serve ;;
        match r with
        | ServesForever => Forever
        | ServeReturns _ => Ret None
        end
    end in
  served_run (trace (run h p s)) (out (run h p s)).
Proof.
  simpl.
  destruct (h _ Register s) as [r s1]; simpl.
  destruct (h _ HandleHTTP s1) as [[] s2]; simpl.
  destruct (h _ (Listen "tcp" ":1234") s2) as [[e |] s3]; simpl.
  - constructor.
  - destruct (h _ Serve s3) as [[| e] s4]; simpl; constructor.
Qed.

Lemma run_client {St : Type} (h : handler St) (cfg : Config) (s : St) :
  let p : prog (option error) :=
    err <- trigger (DialHTTP "tcp" (Backup.dial_address cfg)) ;;
    match err with
    | Some e => Fatal "dialing:" e
    | None =>
        '(subvols, _) <- trigger (Subvolumes cfg) ;;
        '(_, err) <- trigger (Call "BtrfsRPC.SnapshotsNeeded" subvols) ;;
        match err with
        | Some e => Fatal "arith error:" e
        | None => Backup.send_all subvols ;; Ret None
        end
    end in
  client_run cfg (trace (run h p s)) (out (run h p s)).
Proof.
  cbv zeta; cbn [bind trigger run].
  destruct (h _ (DialHTTP "tcp" (Backup.dial_address cfg)) s) as [[e |] s1];
    cbn [bind run cons_event trace out].
  - constructor.
  - destruct (h _ (Subvolumes cfg) s1) as [[subvols err] s2];
      cbn [bind run cons_event trace out record fst snd].
    destruct (h _ (Call "BtrfsRPC.SnapshotsNeeded" subvols) s2)
      as [[reply [e |]] s3];
      cbn [bind run cons_event trace out record fst snd].
    + constructor.
    + rewrite run_bind.
      destruct (run_send_all h subvols s3) as [Ho [answers [Hl Ht]]].
      rewrite Ho, Ht; cbn [run trace out].
      rewrite app_nil_r.
      exact (client_sent cfg subvols reply err answers Hl).
Qed.

Theorem run_process {St : Type} (h : handler St) (cfg : Config) (s : St) :
  processed cfg (trace (run h (Backup.process cfg) s))
    (out (run h (Backup.process cfg) s)).
Proof.
  unfold Backup.process.
  cbn [bind trigger run].
  destruct (h _ Info s) as [[] s0]; cbn [cons_event trace out record].
  rewrite run_bind.
  destruct (run_validateConfig h cfg s0) as [err [Ho Hv]].
  rewrite Ho; cbv zeta; cbn [trace out].
  destruct err as [e |].
  - cbn [run trace out]; rewrite app_nil_r.
    apply processed_invalid; exact Hv.
  - destruct (Server cfg) eqn:Hmode.
    + apply processed_server; [exact Hv | exact Hmode |].
      apply run_served.
    + apply processed_client; [exact Hv | exact Hmode |].
      apply run_client.
Qed.

(** ** Tools for reading a run *)

Lemma filter_driver_sends names answers :
  filter is_driver (send_events names answers) = send_events names answers.
Proof.
  unfold send_events.
  induction (combine names answers) as [| p l IH]; simpl; congruence.
Qed.

Lemma filter_prepare_sends names answers :
  filter is_prepare (send_events names answers) = [].
Proof.
  unfold send_events.
  induction (combine names answers) as [| p l IH]; simpl; congruence.
Qed.

Lemma filter_snapshot_sends names answers :
  filter is_snapshot (send_events names answers) = [].
Proof.
  unfold send_events.
  induction (combine names answers) as [| p l IH]; simpl; congruence.
Qed.

Lemma sent_sends names answers :
  length answers = length names -> sent (send_events names answers) = names.
Proof.
  unfold send_events.
  revert answers; induction names as [| n names IH]; intros [| a answers] H;
    simpl in *; try discriminate; [reflexivity |].
  f_equal; apply IH; lia.
Qed.

Lemma port_out_of_range_spec (port : Z) :
  Backup.port_out_of_range port = true <-> port < 1024 \/ 65535 < port.
Proof.
  unfold Backup.port_out_of_range.
  rewrite orb_true_iff, Z.gtb_ltb, !Z.ltb_lt; tauto.
Qed.

Lemma port_in_range_spec (port : Z) :
  Backup.port_out_of_range port = false <-> 1024 <= port <= 65535.
Proof.
  unfold Backup.port_out_of_range.
  rewrite orb_false_iff, Z.gtb_ltb, !Z.ltb_ge; tauto.
Qed.

(** Replace the trace and outcome of a run of [Backup.process] by one of
    the shapes of [processed], all the way down. *)
Ltac shapes h cfg s :=
  let H := fresh "H" in
  pose proof (run_process h cfg s) as H;
  cbv zeta;
  generalize dependent (out (run h (Backup.process cfg) s));
  generalize dependent (trace (run h (Backup.process cfg) s));
  let t := fresh "t" in
  let o := fresh "o" in
  intros t o H;
  let Hv := fresh "Hv" in
  inversion H as [? ? Hv | ? ? ? Hv ? ? | ? ? ? Hv ? ?]; subst;
  inversion Hv; subst;
  try match goal with
      | Hs : served_run _ _ |- _ => inversion Hs; subst
      | Hc : client_run _ _ _ |- _ => inversion Hc; subst
      end.

(** ** C1: a port outside 1024-65535 *)

(** C1, as stated, fails: with port 80 and a driver that works, the run does
    end with the invalid-port error, but [Prepare] has been called by then,
    so it is not true that no driver call was made. *)
Lemma port_80_reaches_driver :
  let r :=
    run (static (healthy [] [])) (Backup.process (client_config 80)) tt in
  ~ (out r = Returned (Some (InvalidPort 80)) /\
     filter is_driver (trace r) = [] /\
     filter is_network (trace r) = []).
Proof.
  intros r [_ [H _]]; vm_compute in H; discriminate H.
Qed.

(** C1, amended: for every configuration whose port is below 1024 or above
    65535 and every environment, the run makes exactly one driver call,
    [Prepare], and no network call and no other driver call; it returns a
    non-nil error, the invalid-port error when [Prepare] succeeded and
    [Prepare]'s own error otherwise. *)
Theorem invalid_port_stops_after_prepare {St : Type} (h : handler St)
    (cfg : Config) (s : St) :
  DestinationPort cfg < 1024 \/ 65535 < DestinationPort cfg ->
  let r := run h (Backup.process cfg) s in
  exists perr,
    trace r = [EvInfo; EvPrepare cfg perr] /\
    out r =
    Returned
      (Some match perr with
            | Some e => e
            | None => InvalidPort (DestinationPort cfg)
            end).
Proof.
  intros Hport; apply port_out_of_range_spec in Hport.
  shapes h cfg s; try congruence.
  - exists (Some e); split; reflexivity.
  - exists None; split; reflexivity.
Qed.

Lemma invalid_port_stops_after_prepare_witness :
  let cfg := client_config 80 in
  let r := run (static (healthy ["s1"] [])) (Backup.process cfg) tt in
  (DestinationPort cfg < 1024 \/ 65535 < DestinationPort cfg) /\
  exists perr,
    trace r = [EvInfo; EvPrepare cfg perr] /\
    out r =
    Returned
      (Some match perr with
            | Some e => e
            | None => InvalidPort (DestinationPort cfg)
            end).
Proof.
  assert (Hport : DestinationPort (client_config 80) < 1024 \/
                  65535 < DestinationPort (client_config 80))
    by (left; simpl; lia).
  split; [exact Hport |].
  exact (invalid_port_stops_after_prepare (static (healthy ["s1"] []))
           (client_config 80) tt Hport).
Defined.

(** ** C7: [Prepare] comes first, once *)

Lemma run_legacy_process {St : Type} (h : handler St) (config : Type)
    (defaultConfig : config) (Subvolume : config -> string) (s : St) :
  let r := run h (BtrfsBackup.process config defaultConfig Subvolume) s in
  exists perr,
    trace r = [EvPrepareSubvolume (Subvolume defaultConfig) perr] /\
    out r = Returned perr.
Proof.
  unfold BtrfsBackup.process, BtrfsBackup.validateConfig; simpl.
  destruct (h _ (PrepareSubvolume (Subvolume defaultConfig)) s)
    as [[e |] s1]; simpl; eexists; split; reflexivity.
Qed.

(** C7: in every run of [process], of either generation, the driver calls
    start with [Prepare], no later driver call is a [Prepare], and when
    [Prepare] answered with an error there is no later driver call at all.
    (The driver calls are those made by [process] itself.) *)
Theorem prepare_first_and_once {St : Type} (h : handler St) (s : St) :
  (forall cfg : Config,
     exists perr rest,
       filter is_driver (trace (run h (Backup.process cfg) s)) =
       EvPrepare cfg perr :: rest /\
       filter is_prepare rest = [] /\
       match perr with
       | Some _ => rest = []
       | None => True
       end) /\
  (forall (config : Type) (defaultConfig : config)
          (Subvolume : config -> string),
     exists perr,
       filter is_driver
         (trace (run h (BtrfsBackup.process config defaultConfig Subvolume)
                   s)) =
       [EvPrepareSubvolume (Subvolume defaultConfig) perr]).
Proof.
  split.
  - intros cfg.
    shapes h cfg s; simpl;
      rewrite ?filter_app, ?filter_driver_sends; simpl;
      eexists; eexists; (split; [reflexivity |]);
      simpl; rewrite ?filter_app, ?filter_prepare_sends; simpl;
      split; reflexivity || exact I.
  - intros config defaultConfig Subvolume.
    destruct (run_legacy_process h config defaultConfig Subvolume s)
      as [perr [Ht _]].
    exists perr; rewrite Ht; reflexivity.
Qed.

(** ** C8: the snapshot taken by validation *)

(** C8, as stated, fails: a server-mode run on a healthy machine calls the
    driver's [Snapshot]. *)
Lemma server_run_takes_snapshot :
  let cfg := server_config 2000 in
  let r := run (static (healthy ["s1"] [])) (Backup.process cfg) tt in
  Server cfg = true /\ filter is_snapshot (trace r) <> [].
Proof.
  split; [reflexivity | vm_compute; discriminate].
Qed.

(** C8, amended: the driver's [Snapshot] is called by [validateConfig], in
    server mode as in client mode, at most once and as
    [Snapshot(config, "/")].  A run stopped by [Prepare], by the port test or
    by an enumeration that answered an error with a nil list has called it
    not at all; every other run has called it exactly once, after a
    successful [Prepare] and the enumeration and with the port within range;
    a run that gets past validation (one that does not return an error) has
    called it exactly once, with success. *)
Theorem snapshot_once_in_either_mode {St : Type} (h : handler St)
    (cfg : Config) (s : St) :
  let r := run h (Backup.process cfg) s in
  (((exists e, trace r = [EvInfo; EvPrepare cfg (Some e)]) \/
    (trace r = [EvInfo; EvPrepare cfg None] /\
     (DestinationPort cfg < 1024 \/ 65535 < DestinationPort cfg)) \/
    (exists e,
       trace r = [EvInfo; EvPrepare cfg None; EvSubvolumes cfg None (Some e)]))
   /\ filter is_snapshot (trace r) = []
   \/
   exists subvols err err2 rest,
     trace r =
     EvInfo :: EvPrepare cfg None :: EvSubvolumes cfg subvols err
       :: EvSnapshot cfg "/" err2 :: rest /\
     filter is_snapshot (trace r) = [EvSnapshot cfg "/" err2] /\
     1024 <= DestinationPort cfg <= 65535 /\
     not_nil err && is_nil subvols = false /\
     match err2 with
     | Some e2 => rest = [] /\ out r = Returned (Some e2)
     | None => True
     end) /\
  match out r with
  | Returned (Some _) => True
  | _ => filter is_snapshot (trace r) = [EvSnapshot cfg "/" None]
  end.
Proof.
  shapes h cfg s; simpl;
    rewrite ?filter_app, ?filter_snapshot_sends; simpl;
    (split; [| first [exact I | reflexivity]]);
    try solve
      [ right; eexists; eexists; eexists; eexists;
        (split; [reflexivity |]);
        rewrite ?filter_app, ?filter_snapshot_sends;
        repeat split; try assumption; try reflexivity;
        apply port_in_range_spec; assumption ].
  - left; split; [left; eexists; reflexivity | reflexivity].
  - left; split; [| reflexivity].
    right; left; split; [reflexivity |].
    apply port_out_of_range_spec; assumption.
  - left; split; [right; right; eexists; reflexivity | reflexivity].
Qed.

(** ** C10: an enumeration error next to a non-nil list is dropped *)

(** C10: when the enumeration made by [validateConfig] answers with an
    error, [validateConfig] returns that error, and stops, only if the list
    that came with it is nil; with a non-nil list the error is dropped, the
    snapshot step runs, and [validateConfig] returns what [Snapshot]
    answered: nil when it worked. *)
Theorem enumeration_error_suppressed {St : Type} (h : handler St)
    (cfg : Config) (s : St) (subvols : slice string) (e : error) :
  In (EvSubvolumes cfg subvols (Some e))
     (trace (run h (Backup.validateConfig cfg) s)) ->
  let r := run h (Backup.validateConfig cfg) s in
  if is_nil subvols then
    trace r = [EvPrepare cfg None; EvSubvolumes cfg subvols (Some e)] /\
    out r = Returned (Some e)
  else
    exists err2,
      trace r =
      [EvPrepare cfg None; EvSubvolumes cfg subvols (Some e);
       EvSnapshot cfg "/" err2] /\
      out r = Returned err2.
Proof.
  destruct (run_validateConfig h cfg s) as [err [Ho Hv]].
  cbv zeta; rewrite Ho; clear Ho.
  generalize dependent (trace (run h (Backup.validateConfig cfg) s)).
  intros t Hv Hin.
  inversion Hv; subst; simpl in Hin;
    repeat match goal with
           | H : _ \/ _ |- _ => destruct H
           | H : False |- _ => destruct H
           | H : _ = EvSubvolumes _ _ _ |- _ => inversion H; subst; clear H
           end.
  - split; reflexivity.
  - match goal with
    | H : not_nil (Some e) && is_nil subvols = false |- _ =>
        simpl in H; rewrite H
    end.
    exists err; split; reflexivity.
Qed.

Lemma enumeration_error_suppressed_witness :
  let w :=
    mkWorld None (Some ["s1"], Some (External "readdir")) None
      (fun _ => None) None ServesForever None (fun _ => (Some [], None)) in
  let cfg := client_config 8080 in
  let r := run (static w) (Backup.validateConfig cfg) tt in
  In (EvSubvolumes cfg (Some ["s1"]) (Some (External "readdir"))) (trace r) /\
  exists err2,
    trace r =
    [EvPrepare cfg None;
     EvSubvolumes cfg (Some ["s1"]) (Some (External "readdir"));
     EvSnapshot cfg "/" err2] /\
    out r = Returned err2.
Proof.
  intros w cfg r.
  assert (Hin : In (EvSubvolumes cfg (Some ["s1"])
                      (Some (External "readdir"))) (trace r))
    by (right; left; reflexivity).
  split; [exact Hin |].
  exact (enumeration_error_suppressed (static w) cfg tt (Some ["s1"])
           (External "readdir") Hin).
Defined.

(** With the error dropped and the snapshot taken, the run goes on to the
    network. *)
Lemma run_proceeds_past_failed_enumeration {St : Type} (h : handler St)
    (cfg : Config) (s : St) (l : list string) (e : error)
    (rest : list event) :
  trace (run h (Backup.process cfg) s) =
  EvInfo :: EvPrepare cfg None :: EvSubvolumes cfg (Some l) (Some e)
    :: EvSnapshot cfg "/" None :: rest ->
  existsb is_network rest = true /\
  forall e', out (run h (Backup.process cfg) s) <> Returned (Some e').
Proof.
  shapes h cfg s; simpl; intros Ht; inversion Ht; subst;
    (split; [reflexivity | discriminate]).
Qed.

(** ** C4: the exit status *)

(** [backup.go]: the status follows the error of [process]. *)
Lemma run_realMain {St : Type} (h : handler St) (cfg : Config) (s : St) :
  out (run h (Backup.realMain cfg) s) =
  match out (run h (Backup.process cfg) s) with
  | Returned (Some _) => Returned 1
  | Returned None => Returned 0
  | Exited n => Exited n
  | Blocked => Blocked
  end.
Proof.
  unfold Backup.realMain; rewrite run_bind.
  destruct (out (run h (Backup.process cfg) s)) as [[e |] | n |];
    try reflexivity.
  cbv zeta; cbn [bind trigger run].
  destruct (h _ (LogPrintf e) (final (run h (Backup.process cfg) s)));
    reflexivity.
Qed.

(** [btrfs_backup.go]: the status is 0 whatever [process] returned. *)
Lemma run_legacy_realMain {St : Type} (h : handler St) (config : Type)
    (defaultConfig : config) (Subvolume : config -> string) (s : St) :
  out (run h (BtrfsBackup.realMain config defaultConfig Subvolume) s) =
  Returned 0.
Proof.
  unfold BtrfsBackup.realMain, BtrfsBackup.process,
    BtrfsBackup.validateConfig; simpl.
  destruct (h _ (PrepareSubvolume (Subvolume defaultConfig)) s)
    as [[e |] s1]; simpl; [| reflexivity].
  destruct (h _ (LogPrintf e) s1); reflexivity.
Qed.

(** C4 fails in [btrfs_backup.go]: when [Prepare] fails, [process] returns
    that error, [realMain] logs it, and the exit status is still 0. *)
Theorem legacy_realMain_hides_failure :
  let w :=
    mkWorld (Some (External "not a subvolume")) (None, None) None
      (fun _ => None) None ServesForever None (fun _ => (None, None)) in
  let process := BtrfsBackup.process string "/" (fun c => c) in
  let realMain := BtrfsBackup.realMain string "/" (fun c => c) in
  out (run (static w) process tt) =
  Returned (Some (External "not a subvolume")) /\
  trace (run (static w) realMain tt) =
  [EvPrepareSubvolume "/" (Some (External "not a subvolume"));
   EvLogPrintf (External "not a subvolume")] /\
  exit_status (out (run (static w) realMain tt)) = Some 0.
Proof.
  repeat split.
Qed.

(** ** C5: the port that is used *)

(** The server listens on the literal address [":1234"]. *)
Lemma server_listens_on_1234 {St : Type} (h : handler St) (cfg : Config)
    (s : St) (network address : string) (err : option error) :
  In (EvListen network address err) (trace (run h (Backup.process cfg) s)) ->
  address = ":1234".
Proof.
  shapes h cfg s; simpl; rewrite ?in_app_iff; simpl; unfold send_events;
    rewrite ?in_map_iff; intros Hin;
    repeat match goal with
           | H : _ \/ _ |- _ => destruct H
           | H : False |- _ => destruct H
           | H : exists _, _ |- _ => destruct H
           | H : _ /\ _ |- _ => destruct H
           | H : _ = EvListen _ _ _ |- _ => inversion H; subst; clear H
           end;
    reflexivity.
Qed.

(** The client dials the host, a colon, and [string(port)]. *)
Lemma client_dials_intstring {St : Type} (h : handler St) (cfg : Config)
    (s : St) (network address : string) (err : option error) :
  In (EvDialHTTP network address err)
     (trace (run h (Backup.process cfg) s)) ->
  address =
  DestinationHost cfg ++ ":" ++ intstring (DestinationPort cfg).
Proof.
  shapes h cfg s; simpl; rewrite ?in_app_iff; simpl; unfold send_events;
    rewrite ?in_map_iff; intros Hin;
    repeat match goal with
           | H : _ \/ _ |- _ => destruct H
           | H : False |- _ => destruct H
           | H : exists _, _ |- _ => destruct H
           | H : _ /\ _ |- _ => destruct H
           | H : _ = EvDialHTTP _ _ _ |- _ => inversion H; subst; clear H
           end;
    reflexivity.
Qed.

Lemma all_from_spec (f : Z -> bool) (n : nat) :
  forall lo p,
    all_from lo n f = true -> lo <= p < lo + Z.of_nat n -> f p = true.
Proof.
  induction n as [| n IH]; intros lo p H Hp; [lia |].
  simpl in H; apply andb_true_iff in H; destruct H as [H1 H2].
  destruct (Z.eq_dec p lo) as [-> | Hne]; [exact H1 |].
  apply (IH (lo + 1)); [exact H2 | lia].
Qed.

(** No port of the valid range is rendered in decimal by [string(port)]:
    checked on each of them. *)
Lemma intstring_never_decimal (port : Z) :
  1024 <= port <= 65535 -> intstring port <> Itoa port.
Proof.
  intros Hp Heq.
  assert (Hall : all_from 1024 (N.to_nat 64512)
                   (fun p => negb (String.eqb (intstring p) (Itoa p))) = true)
    by (vm_compute; reflexivity).
  pose proof (all_from_spec _ _ 1024 port Hall) as H; cbv beta in H.
  rewrite Heq, String.eqb_refl in H.
  assert (Hn : Z.of_nat (N.to_nat 64512) = 64512) by (vm_compute; reflexivity).
  rewrite Hn in H; specialize (H ltac:(lia)); discriminate H.
Qed.

(** C5 fails on both sides.  A server configured with port 2000 listens on
    [":1234"]; a client configured with port 8080 dials the host followed by
    the three bytes of U+1F90, not by ["8080"]. *)
Theorem configured_port_not_used :
  let env := static (healthy ["s1"] []) in
  filter is_network (trace (run env (Backup.process (server_config 2000)) tt))
  = [EvListen "tcp" ":1234" None; EvServe ServesForever] /\
  ":1234" <> ":" ++ Itoa 2000 /\
  nth_error (filter is_network
               (trace (run env (Backup.process (client_config 8080)) tt))) 0
  = Some (EvDialHTTP "tcp"
            ("backuphost:" ++ bytes_to_string [0xE1; 0xBE; 0x90]) None) /\
  "backuphost:" ++ bytes_to_string [0xE1; 0xBE; 0x90] <>
  DestinationHost (client_config 8080) ++ ":" ++ Itoa 8080.
Proof.
  repeat split; try (vm_compute; discriminate).
Qed.

(** ** The client's transfer loop *)

Lemma filter_send_sends names answers :
  filter is_send (send_events names answers) = send_events names answers.
Proof.
  unfold send_events.
  induction (combine names answers) as [| p l IH]; simpl; congruence.
Qed.

(** A run in which the negotiation call got an answer has the full client
    shape: validation, dial, enumeration, the call, then one send per
    enumerated subvolume. *)
Lemma negotiated_run {St : Type} (h : handler St) (cfg : Config) (s : St)
    (subvols reply : slice string) :
  In (EvCall "BtrfsRPC.SnapshotsNeeded" subvols reply None)
     (trace (run h (Backup.process cfg) s)) ->
  exists head answers,
    length answers = len subvols /\
    filter is_send head = [] /\
    sent head = [] /\
    trace (run h (Backup.process cfg) s) =
    (head ++ send_events (elems subvols) answers)%list /\
    out (run h (Backup.process cfg) s) = Returned None.
Proof.
  shapes h cfg s; simpl; rewrite ?in_app_iff; simpl; unfold send_events;
    rewrite ?in_map_iff; intros Hin;
    repeat match goal with
           | H : _ \/ _ |- _ => destruct H
           | H : False |- _ => destruct H
           | H : exists _, _ |- _ => destruct H
           | H : _ /\ _ |- _ => destruct H
           | H : _ = EvCall _ _ _ _ |- _ => inversion H; subst; clear H
           end.
  match goal with
  | Hl : length ?a = len subvols
    |- context [EvCall _ subvols ?rep None :: map _ (combine _ ?a)] =>
      exists [EvInfo; EvPrepare cfg None; EvSubvolumes cfg subvols0 err;
              EvSnapshot cfg "/" None;
              EvDialHTTP "tcp" (Backup.dial_address cfg) None;
              EvSubvolumes cfg subvols err0;
              EvCall "BtrfsRPC.SnapshotsNeeded" subvols rep None], a
  end.
  repeat split; assumption || reflexivity.
Qed.

(** Whatever the server answered, the client sends its whole list. *)
Lemma client_sends_whole_list {St : Type} (h : handler St) (cfg : Config)
    (s : St) (subvols reply : slice string) :
  In (EvCall "BtrfsRPC.SnapshotsNeeded" subvols reply None)
     (trace (run h (Backup.process cfg) s)) ->
  sent (trace (run h (Backup.process cfg) s)) = elems subvols.
Proof.
  intros Hin.
  destruct (negotiated_run h cfg s subvols reply Hin)
    as [head [answers [Hl [_ [Hs [Ht _]]]]]].
  rewrite Ht; clear Ht Hin.
  induction head as [| ev head IH]; simpl.
  - apply sent_sends; exact Hl.
  - destruct ev; simpl in Hs; try discriminate Hs; auto.
Qed.

(** ** C6: a failed send *)

(** C6, as stated, fails: with three subvolumes and a driver that fails on
    the second, the third is sent all the same, and the run returns nil. *)
Lemma failed_send_does_not_stop_the_loop :
  let w :=
    mkWorld None (Some ["S1"; "S2"; "S3"], None) None
      (fun name =>
         if String.eqb name "S2" then Some (External "send failed") else None)
      None ServesForever None (fun _ => (Some [], None)) in
  let r := run (static w) (Backup.process (client_config 8080)) tt in
  ~ (filter is_send (trace r) =
     [EvSendSubvolume "S1" None;
      EvSendSubvolume "S2" (Some (External "send failed"))]) /\
  nth_error (filter is_send (trace r)) 2 = Some (EvSendSubvolume "S3" None) /\
  out r = Returned None.
Proof.
  repeat split; vm_compute; discriminate.
Qed.

(** C6, amended: a failed send stops nothing and is reported nowhere.  In a
    run in which the server reported no snapshot as present, so that the
    whole enumerated list is missing, the client calls [SendSubvolume]
    exactly once for every element of the list, in the order of the list,
    whatever any of these calls answers: after a failure at position [i] the
    elements after [i] are sent all the same, none is sent twice, and
    [process] returns nil. *)
Theorem every_subvolume_sent_once_in_order {St : Type} (h : handler St)
    (cfg : Config) (s : St) (subvols reply : slice string) :
  In (EvCall "BtrfsRPC.SnapshotsNeeded" subvols reply None)
     (trace (run h (Backup.process cfg) s)) ->
  elems reply = [] ->
  let r := run h (Backup.process cfg) s in
  (exists answers,
     length answers = len subvols /\
     filter is_send (trace r) = send_events (elems subvols) answers) /\
  out r = Returned None.
Proof.
  intros Hin _.
  destruct (negotiated_run h cfg s subvols reply Hin)
    as [head [answers [Hl [Hf [_ [Ht Ho]]]]]].
  cbv zeta; split; [| exact Ho].
  exists answers; split; [exact Hl |].
  rewrite Ht, filter_app, Hf, filter_send_sends; reflexivity.
Qed.

Lemma every_subvolume_sent_once_in_order_witness :
  let w :=
    mkWorld None (Some ["S1"; "S2"; "S3"], None) None
      (fun name =>
         if String.eqb name "S2" then Some (External "send failed") else None)
      None ServesForever None (fun _ => (Some [], None)) in
  let r := run (static w) (Backup.process (client_config 8080)) tt in
  In (EvCall "BtrfsRPC.SnapshotsNeeded" (Some ["S1"; "S2"; "S3"])
        (Some []) None) (trace r) /\
  elems (Some (@nil string)) = [] /\
  (exists answers,
     length answers = 3%nat /\
     filter is_send (trace r) = send_events ["S1"; "S2"; "S3"] answers) /\
  out r = Returned None.
Proof.
  intros w r.
  assert (Hin : In (EvCall "BtrfsRPC.SnapshotsNeeded"
                      (Some ["S1"; "S2"; "S3"]) (Some []) None) (trace r))
    by (vm_compute; tauto).
  assert (He : elems (Some (@nil string)) = []) by reflexivity.
  split; [exact Hin |].
  split; [exact He |].
  exact (every_subvolume_sent_once_in_order (static w) (client_config 8080)
           tt (Some ["S1"; "S2"; "S3"]) (Some []) Hin He).
Defined.

(** ** C9: diverged chains *)

(** C9, as stated, fails: the server reports a snapshot the client does not
    have, so the reported chain is no prefix of the local one, and the run
    does not fail. *)
Lemma diverged_chains_go_unnoticed :
  let L := ["a"] in
  let R := ["b"] in
  let r := run (static (healthy L R)) (Backup.process (client_config 8080)) tt in
  firstn (length R) L <> R /\
  In (EvCall "BtrfsRPC.SnapshotsNeeded" (Some L) (Some R) None) (trace r) /\
  ~ (out r <> Returned None).
Proof.
  repeat split; [discriminate | vm_compute; tauto |].
  intros H; apply H; reflexivity.
Qed.

(** C9, amended: the client has no divergence check.  For every local list
    and every reply, prefix of the list or not, a run whose negotiation call
    returned without error ends with [process] returning nil. *)
Theorem no_divergence_failure {St : Type} (h : handler St) (cfg : Config)
    (s : St) (subvols reply : slice string) :
  In (EvCall "BtrfsRPC.SnapshotsNeeded" subvols reply None)
     (trace (run h (Backup.process cfg) s)) ->
  out (run h (Backup.process cfg) s) = Returned None /\
  exit_status (out (run h (Backup.realMain cfg) s)) = Some 0.
Proof.
  intros Hin.
  destruct (negotiated_run h cfg s subvols reply Hin)
    as [head [answers [_ [_ [_ [_ Ho]]]]]].
  split; [exact Ho |].
  rewrite run_realMain, Ho; reflexivity.
Qed.

Lemma no_divergence_failure_witness :
  let r := run (static (healthy ["a"] ["b"]))
             (Backup.process (client_config 8080)) tt in
  In (EvCall "BtrfsRPC.SnapshotsNeeded" (Some ["a"]) (Some ["b"]) None)
     (trace r) /\
  out r = Returned None /\
  exit_status
    (out (run (static (healthy ["a"] ["b"]))
            (Backup.realMain (client_config 8080)) tt)) = Some 0.
Proof.
  intros r.
  assert (Hin : In (EvCall "BtrfsRPC.SnapshotsNeeded" (Some ["a"])
                      (Some ["b"]) None) (trace r))
    by (vm_compute; tauto).
  split; [exact Hin |].
  exact (no_divergence_failure (static (healthy ["a"] ["b"]))
           (client_config 8080) tt (Some ["a"]) (Some ["b"]) Hin).
Defined.

(** ** C2 and C3: what is sent after the negotiation *)

(** C2 fails on the code: the local chain is [s1; s2], the server reports
    [s1], a prefix, and the client sends [s1; s2] where the claim has the
    suffix [s2].  The two special cases of the claim do hold: an empty
    report gives the whole list, an empty list gives nothing. *)
Theorem reply_is_not_used :
  let L := ["s1"; "s2"] in
  let R := ["s1"] in
  let r := run (static (healthy L R)) (Backup.process (client_config 8080)) tt in
  firstn (length R) L = R /\
  In (EvCall "BtrfsRPC.SnapshotsNeeded" (Some L) (Some R) None) (trace r) /\
  sent (trace r) = ["s1"; "s2"] /\
  skipn (length R) L = ["s2"].
Proof.
  repeat split; vm_compute; tauto.
Qed.

(** C3 fails on the code: a second run right after a complete first one is
    told by the server that it holds every snapshot of the chain, so that
    nothing is missing, and sends the whole chain again. *)
Theorem second_run_sends_everything_again :
  let chain := ["s1"; "s2"] in
  let cfg := client_config 8080 in
  let r1 := run (peer chain) (Backup.process cfg) [] in
  let r2 := run (peer chain) (Backup.process cfg) (final r1) in
  out r1 = Returned None /\
  final r1 = chain /\
  In (EvCall "BtrfsRPC.SnapshotsNeeded" (Some chain) (Some chain) None)
     (trace r2) /\
  filter (fun name => negb (mem name chain)) chain = [] /\
  sent (trace r2) = chain.
Proof.
  repeat split; vm_compute; tauto.
Qed.

(** * Further properties of the code *)

(** ** [validateConfig] *)

(** [validateConfig] returns nil exactly in the runs in which all three
    driver calls were made, in the order [Prepare], [Subvolumes],
    [Snapshot(config, "/")], with [Prepare] and [Snapshot] answering nil, the
    port within 1024..65535, and the enumeration not answering an error with
    a nil list. *)
Theorem validateConfig_nil_iff_all_checks {St : Type} (h : handler St)
    (cfg : Config) (s : St) :
  out (run h (Backup.validateConfig cfg) s) = Returned None <->
  exists subvols err,
    trace (run h (Backup.validateConfig cfg) s) =
    [EvPrepare cfg None; EvSubvolumes cfg subvols err;
     EvSnapshot cfg "/" None] /\
    1024 <= DestinationPort cfg <= 65535 /\
    not_nil err && is_nil subvols = false.
Proof.
  destruct (run_validateConfig h cfg s) as [r [Ho Hv]].
  rewrite Ho; clear Ho.
  generalize dependent (trace (run h (Backup.validateConfig cfg) s)).
  intros t Hv; split.
  - intros Hr; inversion Hr; subst; inversion Hv; subst.
    exists subvols, err; repeat split;
      try (apply port_in_range_spec; assumption); assumption.
  - intros [subvols [err [Ht _]]]; subst.
    inversion Hv; subst; reflexivity.
Qed.

(** The error [process] returns comes from validation, and from its last
    step: the run ends right after the failing check, which is [Prepare],
    the port test, an enumeration answering an error with a nil list, or
    [Snapshot]. *)
Theorem returned_error_is_last_check {St : Type} (h : handler St)
    (cfg : Config) (s : St) (e : error) :
  out (run h (Backup.process cfg) s) = Returned (Some e) ->
  let t := trace (run h (Backup.process cfg) s) in
  t = [EvInfo; EvPrepare cfg (Some e)] \/
  (t = [EvInfo; EvPrepare cfg None] /\
   e = InvalidPort (DestinationPort cfg) /\
   (DestinationPort cfg < 1024 \/ 65535 < DestinationPort cfg)) \/
  t = [EvInfo; EvPrepare cfg None; EvSubvolumes cfg None (Some e)] \/
  exists subvols err,
    t = [EvInfo; EvPrepare cfg None; EvSubvolumes cfg subvols err;
         EvSnapshot cfg "/" (Some e)].
Proof.
  shapes h cfg s; intros Hr; inversion Hr; subst.
  - left; reflexivity.
  - right; left; repeat split.
    apply port_out_of_range_spec; assumption.
  - right; right; left; reflexivity.
  - right; right; right; eexists; eexists; reflexivity.
Qed.

Lemma returned_error_is_last_check_witness :
  let w :=
    mkWorld None (Some ["s1"], None) (Some (External "no space"))
      (fun _ => None) None ServesForever None (fun _ => (Some [], None)) in
  let cfg := client_config 8080 in
  let t := trace (run (static w) (Backup.process cfg) tt) in
  out (run (static w) (Backup.process cfg) tt) =
  Returned (Some (External "no space")) /\
  (t = [EvInfo; EvPrepare cfg (Some (External "no space"))] \/
   (t = [EvInfo; EvPrepare cfg None] /\
    External "no space" = InvalidPort (DestinationPort cfg) /\
    (DestinationPort cfg < 1024 \/ 65535 < DestinationPort cfg)) \/
   t = [EvInfo; EvPrepare cfg None;
        EvSubvolumes cfg None (Some (External "no space"))] \/
   exists subvols err,
     t = [EvInfo; EvPrepare cfg None; EvSubvolumes cfg subvols err;
          EvSnapshot cfg "/" (Some (External "no space"))]).
Proof.
  intros w cfg t.
  assert (Ho : out (run (static w) (Backup.process cfg) tt) =
               Returned (Some (External "no space"))) by reflexivity.
  split; [exact Ho |].
  exact (returned_error_is_last_check (static w) cfg tt
           (External "no space") Ho).
Defined.

(** ** The order of the steps of [process] *)

(** Nothing of the server or client branch happens before validation has
    gone through: a run that registers, listens, serves, dials, calls or
    sends anything has first prepared, enumerated and taken the snapshot,
    with [Prepare] and [Snapshot] successful and the port within range. *)
Theorem branch_only_after_validation {St : Type} (h : handler St)
    (cfg : Config) (s : St) :
  existsb (fun ev => is_server_side ev || is_client_side ev)
    (trace (run h (Backup.process cfg) s)) = true ->
  (exists subvols err rest,
     trace (run h (Backup.process cfg) s) =
     EvInfo :: EvPrepare cfg None :: EvSubvolumes cfg subvols err
       :: EvSnapshot cfg "/" None :: rest) /\
  1024 <= DestinationPort cfg <= 65535.
Proof.
  shapes h cfg s; simpl; intros Hex; try discriminate Hex;
    (split; [eexists; eexists; eexists; reflexivity
            | apply port_in_range_spec; assumption]).
Qed.

Lemma branch_only_after_validation_witness :
  let cfg := server_config 2000 in
  let t := trace (run (static (healthy ["s1"] [])) (Backup.process cfg) tt) in
  existsb (fun ev => is_server_side ev || is_client_side ev) t = true /\
  (exists subvols err rest,
     t = EvInfo :: EvPrepare cfg None :: EvSubvolumes cfg subvols err
           :: EvSnapshot cfg "/" None :: rest) /\
  1024 <= DestinationPort cfg <= 65535.
Proof.
  intros cfg t.
  assert (Hex : existsb (fun ev => is_server_side ev || is_client_side ev) t
                = true) by reflexivity.
  split; [exact Hex |].
  exact (branch_only_after_validation (static (healthy ["s1"] [])) cfg tt Hex).
Defined.

Lemma filter_server_side_sends names answers :
  filter is_server_side (send_events names answers) = [].
Proof.
  unfold send_events.
  induction (combine names answers) as [| p l IH]; simpl; congruence.
Qed.

(** The two modes do not mix: a server-mode run never dials, calls or
    sends, and a client-mode run never registers, listens or serves. *)
Theorem modes_do_not_mix {St : Type} (h : handler St) (cfg : Config)
    (s : St) :
  filter (if Server cfg then is_client_side else is_server_side)
    (trace (run h (Backup.process cfg) s)) = [].
Proof.
  shapes h cfg s;
    repeat match goal with
           | H : Server cfg = _ |- _ => rewrite H
           end;
    try (destruct (Server cfg); reflexivity);
    simpl; rewrite ?filter_app, ?filter_server_side_sends; reflexivity.
Qed.

(** ** How a run ends *)

Lemma existsb_fatal_sends names answers :
  existsb is_fatal (send_events names answers) = false.
Proof.
  unfold send_events.
  induction (combine names answers) as [| p l IH]; simpl; congruence.
Qed.

(** [process] dies in [log.Fatal], with exit status 1, exactly when
    [net.Listen], [rpc.DialHTTP] or the negotiation call answered with an
    error; nothing has been sent by then. *)
Theorem fatal_iff_network_error {St : Type} (h : handler St) (cfg : Config)
    (s : St) :
  let r := run h (Backup.process cfg) s in
  (out r = Exited 1 <-> existsb is_fatal (trace r) = true) /\
  match out r with
  | Exited _ => sent (trace r) = []
  | _ => True
  end.
Proof.
  shapes h cfg s; simpl;
    rewrite ?existsb_app, ?existsb_fatal_sends; simpl;
    (split; [split; intros Hx; try discriminate Hx; reflexivity
            | first [exact I | reflexivity]]).
Qed.

(** What [http.Serve] does decides how a server run ends: while it serves,
    the process never exits; when it returns, its error is dropped,
    [process] returns nil and the exit status is 0. *)
Theorem serve_decides_server_outcome {St : Type} (h : handler St)
    (cfg : Config) (s : St) (r : served) :
  In (EvServe r) (trace (run h (Backup.process cfg) s)) ->
  out (run h (Backup.process cfg) s) =
  match r with
  | ServesForever => Blocked
  | ServeReturns _ => Returned None
  end /\
  exit_status (out (run h (Backup.realMain cfg) s)) =
  match r with
  | ServesForever => None
  | ServeReturns _ => Some 0
  end.
Proof.
  rewrite run_realMain.
  shapes h cfg s; simpl; rewrite ?in_app_iff; simpl; unfold send_events;
    rewrite ?in_map_iff; intros Hin;
    repeat match goal with
           | H : _ \/ _ |- _ => destruct H
           | H : False |- _ => destruct H
           | H : exists _, _ |- _ => destruct H
           | H : _ /\ _ |- _ => destruct H
           | H : _ = EvServe _ |- _ => inversion H; subst; clear H
           end;
    split; reflexivity.
Qed.

Lemma serve_decides_server_outcome_witness :
  let w :=
    mkWorld None (Some ["s1"], None) None (fun _ => None) None
      (ServeReturns (External "listener closed")) None
      (fun _ => (Some [], None)) in
  let cfg := server_config 2000 in
  In (EvServe (ServeReturns (External "listener closed")))
     (trace (run (static w) (Backup.process cfg) tt)) /\
  out (run (static w) (Backup.process cfg) tt) = Returned None /\
  exit_status (out (run (static w) (Backup.realMain cfg) tt)) = Some 0.
Proof.
  intros w cfg.
  assert (Hin : In (EvServe (ServeReturns (External "listener closed")))
                   (trace (run (static w) (Backup.process cfg) tt)))
    by (vm_compute; tauto).
  split; [exact Hin |].
  exact (serve_decides_server_outcome (static w) cfg tt
           (ServeReturns (External "listener closed")) Hin).
Defined.

(** [realMain] adds one thing to what [process] did: when [process] returned
    an error it logs that error, once, at the very end; otherwise it makes no
    call of its own. *)
Theorem realMain_logs_returned_error {St : Type} (h : handler St)
    (cfg : Config) (s : St) :
  trace (run h (Backup.realMain cfg) s) =
  (trace (run h (Backup.process cfg) s) ++
   match out (run h (Backup.process cfg) s) with
   | Returned (Some e) => [EvLogPrintf e]
   | _ => []
   end)%list.
Proof.
  unfold Backup.realMain; rewrite run_bind.
  destruct (out (run h (Backup.process cfg) s)) as [[e |] | n |];
    cbv zeta; cbn [bind trigger run trace];
    rewrite ?app_nil_r; try reflexivity.
  destruct (h _ (LogPrintf e) (final (run h (Backup.process cfg) s)));
    reflexivity.
Qed.

(** ** The negotiation *)

(** Once the dial has succeeded the client enumerates again and makes the
    negotiation call with exactly the list this enumeration gave; the error
    of the enumeration is not looked at.  What follows the call is one send
    per element when the call succeeded, and nothing when it failed. *)
Theorem dial_then_enumerate_then_call {St : Type} (h : handler St)
    (cfg : Config) (s : St) (network address : string) :
  In (EvDialHTTP network address None)
     (trace (run h (Backup.process cfg) s)) ->
  exists pre subvols enum_err reply err post,
    trace (run h (Backup.process cfg) s) =
    (pre ++
     [EvDialHTTP network address None; EvSubvolumes cfg subvols enum_err;
      EvCall "BtrfsRPC.SnapshotsNeeded" subvols reply err] ++ post)%list /\
    sent post =
    match err with
    | Some _ => []
    | None => elems subvols
    end.
Proof.
  shapes h cfg s; simpl; rewrite ?in_app_iff; simpl; unfold send_events;
    rewrite ?in_map_iff; intros Hin;
    repeat match goal with
           | H : _ \/ _ |- _ => destruct H
           | H : False |- _ => destruct H
           | H : exists _, _ |- _ => destruct H
           | H : _ /\ _ |- _ => destruct H
           | H : _ = EvDialHTTP _ _ _ |- _ => inversion H; subst; clear H
           end.
  - eexists [_; _; _; _], _, _, _, _, _; split; [reflexivity |].
    reflexivity.
  - eexists [_; _; _; _], _, _, _, _, _; split; [reflexivity |].
    apply sent_sends; assumption.
Qed.

Lemma dial_then_enumerate_then_call_witness :
  let w :=
    mkWorld None (None, Some (External "readdir")) None (fun _ => None)
      None ServesForever None (fun _ => (Some [], None)) in
  let w0 := healthy ["s1"] [] in
  let env : handler nat :=
    fun X c n =>
      (fst (static (if Nat.leb n 4 then w0 else w) X c tt), S n) in
  let cfg := client_config 8080 in
  let t := trace (run env (Backup.process cfg) O) in
  In (EvDialHTTP "tcp" (Backup.dial_address cfg) None) t /\
  exists pre subvols enum_err reply err post,
    t =
    (pre ++
     [EvDialHTTP "tcp" (Backup.dial_address cfg) None;
      EvSubvolumes cfg subvols enum_err;
      EvCall "BtrfsRPC.SnapshotsNeeded" subvols reply err] ++ post)%list /\
    sent post =
    match err with
    | Some _ => []
    | None => elems subvols
    end.
Proof.
  intros w w0 env cfg t.
  assert (Hin : In (EvDialHTTP "tcp" (Backup.dial_address cfg) None) t)
    by (vm_compute; tauto).
  split; [exact Hin |].
  exact (dial_then_enumerate_then_call env cfg O "tcp"
           (Backup.dial_address cfg) Hin).
Defined.

(** ** The address the client dials *)

Lemma append_inj_l (a b c : string) : a ++ b = a ++ c -> b = c.
Proof.
  induction a as [| ch a IH]; simpl; intros H; [exact H |].
  inversion H; auto.
Qed.

(** For no port of the accepted range does the client dial
    [host:port] with the port in decimal. *)
Theorem dial_address_never_decimal (cfg : Config) :
  1024 <= DestinationPort cfg <= 65535 ->
  Backup.dial_address cfg <>
  DestinationHost cfg ++ ":" ++ Itoa (DestinationPort cfg).
Proof.
  intros Hp Heq; unfold Backup.dial_address in Heq.
  apply append_inj_l in Heq.
  apply (append_inj_l ":") in Heq.
  exact (intstring_never_decimal _ Hp Heq).
Qed.

Lemma dial_address_never_decimal_witness :
  1024 <= DestinationPort (client_config 8080) <= 65535 /\
  Backup.dial_address (client_config 8080) <> "backuphost" ++ ":" ++ Itoa 8080.
Proof.
  assert (Hp : 1024 <= DestinationPort (client_config 8080) <= 65535)
    by (simpl; lia).
  split; [exact Hp |].
  exact (dial_address_never_decimal (client_config 8080) Hp).
Defined.

(** The accepted ports 55296..57343 are surrogate code points: for every one
    of them the client dials the same address, the host followed by a colon
    and the three bytes of U+FFFD. *)
Theorem surrogate_ports_dial_one_address (cfg : Config) :
  0xD800 <= DestinationPort cfg <= 0xDFFF ->
  Backup.port_out_of_range (DestinationPort cfg) = false /\
  Backup.dial_address cfg =
  DestinationHost cfg ++ ":" ++ bytes_to_string [0xEF; 0xBF; 0xBD].
Proof.
  intros Hp; split.
  - apply port_in_range_spec; lia.
  - unfold Backup.dial_address, intstring, valid_rune.
    replace (0xD800 <=? DestinationPort cfg) with true
      by (symmetry; apply Z.leb_le; lia).
    replace (DestinationPort cfg <=? 0xDFFF) with true
      by (symmetry; apply Z.leb_le; lia).
    rewrite andb_false_r; reflexivity.
Qed.

Lemma surrogate_ports_dial_one_address_witness :
  let cfg := client_config 56000 in
  0xD800 <= DestinationPort cfg <= 0xDFFF /\
  Backup.port_out_of_range (DestinationPort cfg) = false /\
  Backup.dial_address cfg =
  DestinationHost cfg ++ ":" ++ bytes_to_string [0xEF; 0xBF; 0xBD].
Proof.
  intros cfg.
  assert (Hp : 0xD800 <= DestinationPort cfg <= 0xDFFF) by (simpl; lia).
  split; [exact Hp |].
  exact (surrogate_ports_dial_one_address cfg Hp).
Defined.

(** ** The earlier entry point *)

(** Every run of [btrfs_backup.go] makes one driver call, [Prepare] on the
    default configuration's subvolume, logs its error if there is one, and
    ends with status 0. *)
Theorem legacy_run_shape {St : Type} (h : handler St) (config : Type)
    (defaultConfig : config) (Subvolume : config -> string) (s : St) :
  let r := run h (BtrfsBackup.realMain config defaultConfig Subvolume) s in
  exists perr,
    trace r =
    EvPrepareSubvolume (Subvolume defaultConfig) perr
      :: match perr with
         | Some e => [EvLogPrintf e]
         | None => []
         end /\
    out r = Returned 0.
Proof.
  unfold BtrfsBackup.realMain, BtrfsBackup.process,
    BtrfsBackup.validateConfig; simpl.
  destruct (h _ (PrepareSubvolume (Subvolume defaultConfig)) s)
    as [[e |] s1]; simpl.
  - destruct (h _ (LogPrintf e) s1).
    exists (Some e); split; reflexivity.
  - exists None; split; reflexivity.
Qed.

(** ** [logOutput] and the environment *)

Lemma Getenv_Setenv_same (key value : string) (env : environ) :
  Getenv (Setenv key value env) key = value.
Proof.
  unfold Getenv, Setenv; rewrite String.eqb_refl; reflexivity.
Qed.

Lemma Getenv_Setenv_other (key value k : string) (env : environ) :
  k <> key -> Getenv (Setenv key value env) k = Getenv env k.
Proof.
  unfold Getenv, Setenv; intros H.
  destruct (String.eqb_spec k key); [contradiction | reflexivity].
Qed.

(** [logOutput] hands out a writer or an error, never both and never
    neither.  It creates at most one file, only when both
    [BTRFS_BACKUP_LOG] and [BTRFS_BACKUP_LOG_PATH] are set, and then the file
    at that path is the writer it returns; an error is the one [os.Create]
    gave for that path. *)
Theorem logOutput_writer_xor_error (create_error : string -> option error)
    (env : environ) (created : list string) :
  let '(w, err, created') := logOutput create_error env created in
  let path := Getenv env "BTRFS_BACKUP_LOG_PATH" in
  (w = None <-> err <> None) /\
  ((created' = created /\ w <> Some (File path)) \/
   (created' = path :: created /\ w = Some (File path) /\
    Getenv env "BTRFS_BACKUP_LOG" <> "" /\ path <> "")) /\
  match err with
  | Some e =>
      create_error path = Some e /\
      Getenv env "BTRFS_BACKUP_LOG" <> "" /\ path <> ""
  | None => True
  end.
Proof.
  unfold logOutput, Create.
  destruct (String.eqb_spec (Getenv env "BTRFS_BACKUP_LOG") "") as [Hl | Hl];
    simpl.
  - repeat split; try discriminate; try congruence.
    left; split; [reflexivity | discriminate].
  - destruct (String.eqb_spec (Getenv env "BTRFS_BACKUP_LOG_PATH") "")
      as [Hp | Hp]; simpl.
    + repeat split; try discriminate; try congruence.
      left; split; [reflexivity | discriminate].
    + destruct (create_error (Getenv env "BTRFS_BACKUP_LOG_PATH"))
        as [e |] eqn:Hc.
      * repeat split; try discriminate; try congruence.
        left; split; [reflexivity | discriminate].
      * repeat split; try discriminate; try congruence.
        right; repeat split; assumption.
Qed.

(** After [realMain] has reset the log variables, [logOutput] discards the
    log and touches no file, whatever the environment was before. *)
Theorem logOutput_after_reset (create_error : string -> option error)
    (env : environ) (created : list string) :
  logOutput create_error (reset_log_variables env) created =
  (Some Discard, None, created).
Proof.
  unfold logOutput, reset_log_variables.
  rewrite Getenv_Setenv_other by discriminate.
  rewrite Getenv_Setenv_same; reflexivity.
Qed.

(** The second variable [realMain] resets, [BTRFS_BACKUP_LOG_FILE], is not
    one [logOutput] reads: setting it changes nothing for [logOutput], and
    the path variable it does read, [BTRFS_BACKUP_LOG_PATH], comes through
    the reset unchanged, as does every variable other than the two reset. *)
Theorem reset_misses_log_path (create_error : string -> option error)
    (env : environ) (created : list string) (value : string) :
  logOutput create_error (Setenv "BTRFS_BACKUP_LOG_FILE" value env) created =
  logOutput create_error env created /\
  Getenv (reset_log_variables env) "BTRFS_BACKUP_LOG_PATH" =
  Getenv env "BTRFS_BACKUP_LOG_PATH" /\
  forall key,
    Getenv (reset_log_variables env) key =
    if String.eqb key "BTRFS_BACKUP_LOG" ||
       String.eqb key "BTRFS_BACKUP_LOG_FILE"
    then "" else Getenv env key.
Proof.
  split; [| split].
  - unfold logOutput.
    rewrite !Getenv_Setenv_other by discriminate; reflexivity.
  - unfold reset_log_variables.
    rewrite !Getenv_Setenv_other by discriminate; reflexivity.
  - intros key; unfold reset_log_variables, Getenv, Setenv.
    destruct (String.eqb key "BTRFS_BACKUP_LOG_FILE");
      destruct (String.eqb key "BTRFS_BACKUP_LOG"); reflexivity.
Qed.

(** A run that listens, whatever port it was configured with. *)
Lemma server_listens_on_1234_witness :
  let cfg := server_config 2000 in
  In (EvListen "tcp" ":1234" None)
     (trace (run (static (healthy ["s1"] [])) (Backup.process cfg) tt)) /\
  ":1234" = ":1234".
Proof.
  intros cfg.
  assert (Hin : In (EvListen "tcp" ":1234" None)
                   (trace (run (static (healthy ["s1"] []))
                             (Backup.process cfg) tt)))
    by (vm_compute; tauto).
  split; [exact Hin |].
  exact (server_listens_on_1234 (static (healthy ["s1"] [])) cfg tt
           "tcp" ":1234" None Hin).
Defined.
